(** * Its-Broken Triage router (src/agent.ts)

    Shallow embedding of the router agent: the channel-id extractor
    [extractChannelId], the entry point [start] and the resumption handler
    [onToolResults], with the host's [task.save]/[task.restore] modelled as
    explicit state passing over a persisted store and a log of task
    operations, and the outbound tool calls as the returned [AgentResult]. *)

From Stdlib Require Import Ascii String List Bool Arith Lia.
Import ListNotations.
Open Scope list_scope.
Open Scope string_scope.

(** ** Characters

    The input text is a JS string; we model it as a Rocq [string] whose
    characters are UTF-16 code units in the range 0..255 (Latin-1). *)

Definition dquote : ascii := ascii_of_nat 34.
Definition colon : ascii := ascii_of_nat 58.

(** JS non-unicode case-insensitive [Canonicalize]: [toUpperCase], except
    that a character >= 128 never canonicalises below 128.  On Latin-1 the
    only changes below 128 are [a-z] to [A-Z]; changes among characters
    >= 128 do not affect the pattern below, so they are left out. *)
Definition canonicalize (c : ascii) : ascii :=
  let n := nat_of_ascii c in
  if ((97 <=? n) && (n <=? 122))%nat then ascii_of_nat (n - 32) else c.

(** JS [\s] restricted to code units 0..255: tab, LF, VT, FF, CR, space
    and NBSP (U+00A0). *)
Definition is_space (c : ascii) : bool :=
  existsb (Nat.eqb (nat_of_ascii c)) [9; 10; 11; 12; 13; 32; 160].

(** The class [[A-Z0-9]] under the [i] flag: a character matches when its
    canonical form is in the class. *)
Definition in_token_class (c : ascii) : bool :=
  let u := nat_of_ascii (canonicalize c) in
  (((65 <=? u) && (u <=? 90)) || ((48 <=? u) && (u <=? 57)))%nat.

(** ** The regular expression [/"channel"\s*:\s*"([A-Z0-9]+)"/i]

    [String.prototype.match] with a non-global regex tries every start
    position from left to right and returns the first match.  At a fixed
    position the match is deterministic: [\s*] is followed by [:] or ["],
    neither a space, and [[A-Z0-9]+] is followed by ["], not in the class,
    so backtracking never finds another match than the greedy one. *)

(** A literal matched case-insensitively; returns the rest of the text. *)
Fixpoint match_literal_ci (p s : string) : option string :=
  match p, s with
  | EmptyString, _ => Some s
  | String pc pr, String c r =>
      if Ascii.eqb (canonicalize c) (canonicalize pc)
      then match_literal_ci pr r else None
  | String _ _, EmptyString => None
  end.

(** [\s*], greedy. *)
Fixpoint skip_spaces (s : string) : string :=
  match s with
  | String c r => if is_space c then skip_spaces r else s
  | EmptyString => s
  end.

(** [[A-Z0-9]*], greedy; returns the consumed token and the rest. *)
Fixpoint take_token (s : string) : string * string :=
  match s with
  | String c r =>
      if in_token_class c
      then let '(t, r') := take_token r in (String c t, r')
      else (EmptyString, s)
  | EmptyString => (EmptyString, EmptyString)
  end.

Definition channel_field : string :=
  String dquote ("channel" ++ String dquote EmptyString).

(** The regex anchored at the start of [s]; returns capture group 1. *)
Definition match_at (s : string) : option string :=
  match match_literal_ci channel_field s with
  | None => None
  | Some r1 =>
      match skip_spaces r1 with
      | String c2 r2 =>
          if Ascii.eqb (canonicalize c2) colon then
            match skip_spaces r2 with
            | String c3 r3 =>
                if Ascii.eqb (canonicalize c3) dquote then
                  match take_token r3 with
                  | (String t0 tr, String c4 _) =>
                      if Ascii.eqb (canonicalize c4) dquote
                      then Some (String t0 tr) else None
                  | _ => None
                  end
                else None
            | EmptyString => None
            end
          else None
      | EmptyString => None
      end
  end.

(** Left-to-right search over start positions 0 .. length s. *)
Fixpoint regex_exec (s : string) : option string :=
  match match_at s with
  | Some t => Some t
  | None =>
      match s with
      | EmptyString => None
      | String _ r => regex_exec r
      end
  end.

(** [extractChannelId]: [match ? match[1] : null]. *)
Definition extractChannelId (inputText : string) : option string :=
  regex_exec inputText.

(** ** Data model *)

Definition TARGET_CHANNEL : string := "its-broken".

(** [inputSchema] / [outputSchema]: [{ type: "text", text: string }]. *)
Record Input := { in_type : string; in_text : string }.
Record Output := { out_type : string; out_text : string }.

(** [stateSchema].  The stage is kept as the string the host stores; the
    schema admits exactly the two enum values ([stateSchema_ok]). *)
Record State := {
  originalInput : string;
  channelId : string;
  channelName : string;
  stage : string
}.

Definition stateSchema_ok (st : State) : bool :=
  (stage st =? "checking_channel") || (stage st =? "running_triage").

(** Outputs of the two tools.  [slack_get_conversation_info] returns what
    the code casts to [{ channel?: { name?: string } }]; the worker tool's
    [outputSchema] is [{ type: "text", text: string }]. *)
Record ChannelInfo := { name : option string }.
Record SlackConversationInfo := { channel : option ChannelInfo }.
Record WorkerOutput := { w_type : string; text : string }.

(** [TypedToolResult<Tools>]: a result tagged by the tool that produced it. *)
Inductive ToolResult :=
| SlackConversationInfoResult (toolCallId : string) (output : SlackConversationInfo)
| TriageWorkerResult (toolCallId : string) (output : WorkerOutput).

Definition toolName (r : ToolResult) : string :=
  match r with
  | SlackConversationInfoResult _ _ => "slack_get_conversation_info"
  | TriageWorkerResult _ _ => "its_broken_triage_worker"
  end.

(** Tool inputs and calls, as passed to [callTools]. *)
Inductive ToolInput :=
| SlackConversationInfoInput (channel : string)
| TriageWorkerInput (type_ : string) (text : string).

Record ToolCall := {
  call_type : string;
  call_toolCallId : string;
  call_toolName : string;
  call_input : ToolInput
}.

(** [AgentResult<Output, Tools>]: a terminal output, or outbound calls on
    which the task suspends. *)
Inductive AgentResult :=
| AROutput (output : Output)
| ARCallTools (calls : list ToolCall).

Definition output_text (t : string) : AgentResult :=
  AROutput {| out_type := "text"; out_text := t |}.

Definition is_terminal (r : AgentResult) : bool :=
  match r with AROutput _ => true | ARCallTools _ => false end.

(** ** The task: persisted state and the log of its operations *)

Inductive TaskOp :=
| OpRestore
| OpSave (st : State).

Record World := { store : option State; ops : list TaskOp }.

Definition M (A : Type) : Type := World -> A * World.

Definition ret {A} (a : A) : M A := fun w => (a, w).

Definition bind {A B} (m : M A) (k : A -> M B) : M B :=
  fun w => let '(a, w') := m w in k a w'.

Notation "x <- m ;; k" := (bind m (fun x => k))
  (at level 61, m at next level, right associativity).

(** [task.restore()]: the last saved state, if any. *)
Definition restore : M (option State) :=
  fun w => (store w, {| store := store w; ops := ops w ++ [OpRestore] |}).

(** [task.save(st)]. *)
Definition save (st : State) : M unit :=
  fun w => (tt, {| store := Some st; ops := ops w ++ [OpSave st] |}).

(** ** The router *)

(** [results.find((r) => r.toolName === n)]. *)
Definition find_result (n : string) (results : list ToolResult) : option ToolResult :=
  find (fun r => toolName r =? n) results.

(** [(channelResult.output as { channel?: { name?: string } }).channel?.name];
    a worker output object has no [channel] property. *)
Definition channel_name_of (r : ToolResult) : option string :=
  match r with
  | SlackConversationInfoResult _ o =>
      match channel o with Some ci => name ci | None => None end
  | TriageWorkerResult _ _ => None
  end.

(** [(triageResult.output as { type: "text"; text: string }).text]; a Slack
    output object has no [text] property. *)
Definition worker_text_of (r : ToolResult) : option string :=
  match r with
  | TriageWorkerResult _ o => Some (text o)
  | SlackConversationInfoResult _ _ => None
  end.

Definition start (input : Input) : M AgentResult :=
  match extractChannelId (in_text input) with
  | Some (String _ _ as channelId) =>
      _ <- save {| originalInput := in_text input;
                   channelId := channelId;
                   channelName := EmptyString;
                   stage := "checking_channel" |} ;;
      ret (ARCallTools
             [ {| call_type := "tool-call";
                  call_toolCallId := "check-channel";
                  call_toolName := "slack_get_conversation_info";
                  call_input := SlackConversationInfoInput channelId |} ])
  | _ =>
      ret (output_text "Could not extract channel ID from webhook payload. Skipping.")
  end.

(** The [state.stage === "checking_channel"] branch. *)
Definition on_checking_channel (state : State) (results : list ToolResult)
  : M AgentResult :=
  match find_result "slack_get_conversation_info" results with
  | None => ret (output_text "Error: Could not get channel info from Slack")
  | Some channelResult =>
      match channel_name_of channelResult with
      | Some (String _ _ as channelName) =>
          if negb (channelName =? TARGET_CHANNEL) then
            ret (output_text ("Skipped: Message was in #" ++ channelName ++
                              ", not #" ++ TARGET_CHANNEL))
          else
            _ <- save {| originalInput := originalInput state;
                         channelId := channelId state;
                         channelName := channelName;
                         stage := "running_triage" |} ;;
            ret (ARCallTools
                   [ {| call_type := "tool-call";
                        call_toolCallId := "run-triage";
                        call_toolName := "its_broken_triage_worker";
                        call_input := TriageWorkerInput "text" (originalInput state) |} ])
      | _ => ret (output_text "Error: Could not determine channel name")
      end
  end.

(** The [state.stage === "running_triage"] branch. *)
Definition on_running_triage (results : list ToolResult) : M AgentResult :=
  match find_result "its_broken_triage_worker" results with
  | None => ret (output_text "Error: Triage worker did not return a result")
  | Some triageResult =>
      match worker_text_of triageResult with
      | Some (String _ _ as t) => ret (output_text t)
      | _ => ret (output_text "Triage completed")
      end
  end.

Definition onToolResults (results : list ToolResult) : M AgentResult :=
  state <- restore ;;
  match state with
  | None => ret (output_text "Error: Could not restore state")
  | Some state =>
      if stage state =? "checking_channel" then on_checking_channel state results
      else if stage state =? "running_triage" then on_running_triage results
      else ret (output_text "Unexpected state")
  end.

(** ** The pattern, read declaratively

    An occurrence of [/"channel"\s*:\s*"([A-Z0-9]+)"/i] starting at offset
    [i] of [s] whose captured token is [tok]: the field name equals
    [channel] up to case, the two gaps are whitespace, and the token is a
    non-empty run of letters and digits (either case). *)

Fixpoint all_chars (f : ascii -> bool) (s : string) : bool :=
  match s with
  | EmptyString => true
  | String c r => f c && all_chars f r
  end.

Fixpoint ci_eq (a b : string) : bool :=
  match a, b with
  | EmptyString, EmptyString => true
  | String c r, String d q => Ascii.eqb (canonicalize c) (canonicalize d) && ci_eq r q
  | _, _ => false
  end.

Definition occurs_at (s : string) (i : nat) (tok : string) : Prop :=
  exists pre field ws1 ws2 rest,
    s = pre ++ String dquote (field ++ String dquote (ws1 ++ String colon
          (ws2 ++ String dquote (tok ++ String dquote rest))))
    /\ String.length pre = i
    /\ ci_eq field "channel" = true
    /\ all_chars is_space ws1 = true
    /\ all_chars is_space ws2 = true
    /\ tok <> EmptyString
    /\ all_chars in_token_class tok = true.

Definition first_occurrence (s tok : string) : Prop :=
  exists i, occurs_at s i tok /\ forall j t, j < i -> ~ occurs_at s j t.

(** ** Auxiliary definitions used in statements and concrete runs *)

Definition after_restore (w : World) : World :=
  {| store := store w; ops := ops w ++ [OpRestore] |}.

Definition worker_call (t : string) : ToolCall :=
  {| call_type := "tool-call";
     call_toolCallId := "run-triage";
     call_toolName := "its_broken_triage_worker";
     call_input := TriageWorkerInput "text" t |}.

Definition triage_state (st : State) : State :=
  {| originalInput := originalInput st;
     channelId := channelId st;
     channelName := TARGET_CHANNEL;
     stage := "running_triage" |}.

Definition payload (id : string) : string :=
  "{" ++ String dquote "channel" ++ String dquote ":" ++
  String dquote id ++ String dquote "}".

Definition world0 : World := {| store := None; ops := [] |}.

Definition slack_result (nm : string) : ToolResult :=
  SlackConversationInfoResult "check-channel"
    {| channel := Some {| name := Some nm |} |}.

Definition worker_result (t : string) : ToolResult :=
  TriageWorkerResult "run-triage" {| w_type := "text"; text := t |}.

Definition checking_state : State :=
  {| originalInput := payload "C111"; channelId := "C111";
     channelName := EmptyString; stage := "checking_channel" |}.

Definition triage_world : World :=
  {| store := Some (triage_state checking_state); ops := [] |}.

Definition checking_world : World := {| store := Some checking_state; ops := [] |}.

(** ** Runs of the router

    The persisted-state records [start] writes, the Slack lookup call it
    issues, and the worlds the host can produce from an empty store by any
    sequence of [start] and [onToolResults] steps. *)

Definition checking_state_of (input : Input) (id : string) : State :=
  {| originalInput := in_text input; channelId := id;
     channelName := EmptyString; stage := "checking_channel" |}.

Definition slack_call (id : string) : ToolCall :=
  {| call_type := "tool-call";
     call_toolCallId := "check-channel";
     call_toolName := "slack_get_conversation_info";
     call_input := SlackConversationInfoInput id |}.

Definition store_ok (w : World) : Prop :=
  match store w with None => True | Some st => stateSchema_ok st = true end.

Inductive reachable : World -> Prop :=
| reach_init (l : list TaskOp) : reachable {| store := None; ops := l |}
| reach_start (w : World) (input : Input) :
    reachable w -> reachable (snd (start input w))
| reach_resume (w : World) (results : list ToolResult) :
    reachable w -> reachable (snd (onToolResults results w)).

Definition call_names (r : AgentResult) : list string :=
  match r with
  | AROutput _ => []
  | ARCallTools calls => map call_toolName calls
  end.

(** ** Concrete runs *)

Example extract_basic :
  extractChannelId ("{" ++ String dquote "channel" ++ String dquote ":" ++
                    String dquote "C111" ++ String dquote "}")
  = Some "C111".
Proof. reflexivity. Qed.

Example extract_ci :
  extractChannelId ("note " ++ String dquote "CHANNEL" ++ String dquote "  :	" ++
                    String dquote "c1x" ++ String dquote " more")
  = Some "c1x".
Proof. reflexivity. Qed.

Example extract_none :
  extractChannelId ("{" ++ String dquote "channel" ++ String dquote ":" ++
                    String dquote "C-1" ++ String dquote "}")
  = None.
Proof. reflexivity. Qed.

(** Spec scenario: [C111] in [random-chan] is skipped. *)
Example scenario_skip :
  let inp := {| in_type := "text"; in_text := payload "C111" |} in
  let '(_, w1) := start inp world0 in
  fst (onToolResults [slack_result "random-chan"] w1)
  = output_text "Skipped: Message was in #random-chan, not #its-broken".
Proof. vm_compute. reflexivity. Qed.

(** Spec scenario: [C222] in [its-broken] goes to the worker and back. *)
Example scenario_triage :
  let inp := {| in_type := "text"; in_text := payload "C222" |} in
  let '(_, w1) := start inp world0 in
  let '(r2, w2) := onToolResults [slack_result "its-broken"] w1 in
  r2 = ARCallTools [ {| call_type := "tool-call"; call_toolCallId := "run-triage";
                        call_toolName := "its_broken_triage_worker";
                        call_input := TriageWorkerInput "text" (payload "C222") |} ]
  /\ fst (onToolResults [worker_result "Created issue #7"] w2)
     = output_text "Created issue #7".
Proof. vm_compute. split; reflexivity. Qed.

(** ** Lemmas on the extractor *)

Lemma string_app_assoc (a b c : string) : (a ++ b) ++ c = a ++ (b ++ c).
Proof. induction a as [|x a IH]; simpl; [reflexivity | now rewrite IH]. Qed.

Lemma canonicalize_dquote (c : ascii) : canonicalize c = dquote -> c = dquote.
Proof.
  destruct c as [[] [] [] [] [] [] [] []]; vm_compute; intro H;
    first [reflexivity | discriminate H].
Qed.

Lemma canonicalize_colon (c : ascii) : canonicalize c = colon -> c = colon.
Proof.
  destruct c as [[] [] [] [] [] [] [] []]; vm_compute; intro H;
    first [reflexivity | discriminate H].
Qed.

Lemma match_literal_ci_app (p q f r : string) :
  ci_eq f p = true -> match_literal_ci (p ++ q) (f ++ r) = match_literal_ci q r.
Proof.
  revert p; induction f as [|c f IH]; intros [|pc p] H; simpl in *;
    try discriminate; [reflexivity|].
  apply andb_prop in H as [H1 H2]. rewrite H1. now apply IH.
Qed.

Lemma match_literal_ci_cons (pc c : ascii) (p s : string) :
  match_literal_ci (String pc p) (String c s)
  = if Ascii.eqb (canonicalize c) (canonicalize pc) then match_literal_ci p s else None.
Proof. reflexivity. Qed.

Lemma match_literal_ci_inv (p s r : string) :
  match_literal_ci p s = Some r -> exists f, s = f ++ r /\ ci_eq f p = true.
Proof.
  revert s; induction p as [|pc p IH]; intros [|c s] H; simpl in H.
  - injection H as <-. now exists EmptyString.
  - injection H as <-. now exists EmptyString.
  - discriminate.
  - destruct (Ascii.eqb (canonicalize c) (canonicalize pc)) eqn:E; [|discriminate].
    destruct (IH s H) as [f [-> Hf]].
    exists (String c f); simpl. now rewrite E, Hf.
Qed.

Lemma ci_eq_cons (f p : string) (c : ascii) :
  ci_eq f (String c p) = true ->
  exists c' f', f = String c' f' /\ canonicalize c' = canonicalize c /\ ci_eq f' p = true.
Proof.
  destruct f as [|c' f']; simpl; [discriminate|].
  intro H; apply andb_prop in H as [H1 H2].
  exists c', f'; repeat split; auto. now apply Ascii.eqb_eq.
Qed.

Lemma ci_eq_app_inv (f p1 p2 : string) :
  ci_eq f (p1 ++ p2) = true ->
  exists f1 f2, f = f1 ++ f2 /\ ci_eq f1 p1 = true /\ ci_eq f2 p2 = true.
Proof.
  revert f; induction p1 as [|c p1 IH]; intros f H; simpl in H.
  - now exists EmptyString, f.
  - destruct (ci_eq_cons _ _ _ H) as [c' [f' [-> [Hc Hf']]]].
    destruct (IH _ Hf') as [f1 [f2 [-> [H1 H2]]]].
    exists (String c' f1), f2; simpl; repeat split; auto.
    now rewrite Hc, Ascii.eqb_refl.
Qed.

Lemma ci_eq_dquote_end (f : string) :
  ci_eq f (String dquote EmptyString) = true -> f = String dquote EmptyString.
Proof.
  intro H; destruct (ci_eq_cons _ _ _ H) as [c' [f' [-> [Hc Hf']]]].
  apply canonicalize_dquote in Hc. subst c'.
  destruct f'; [reflexivity | discriminate].
Qed.

Lemma skip_spaces_app (ws r : string) :
  all_chars is_space ws = true -> skip_spaces (ws ++ r) = skip_spaces r.
Proof.
  induction ws as [|c ws IH]; simpl; [reflexivity|].
  intro H; apply andb_prop in H as [H1 H2]. rewrite H1. now apply IH.
Qed.

Lemma skip_spaces_inv (s : string) :
  exists ws, s = ws ++ skip_spaces s /\ all_chars is_space ws = true.
Proof.
  induction s as [|c s [ws [Hs Hws]]]; simpl.
  - now exists EmptyString.
  - destruct (is_space c) eqn:E.
    + exists (String c ws); simpl. rewrite E, Hws. now rewrite <- Hs.
    + now exists EmptyString.
Qed.

Lemma take_token_app (t r : string) (c : ascii) :
  all_chars in_token_class t = true -> in_token_class c = false ->
  take_token (t ++ String c r) = (t, String c r).
Proof.
  intros Ht Hc; induction t as [|x t IH]; simpl in *.
  - now rewrite Hc.
  - apply andb_prop in Ht as [H1 H2]. rewrite H1, (IH H2). reflexivity.
Qed.

Lemma take_token_inv (s t r : string) :
  take_token s = (t, r) -> s = t ++ r /\ all_chars in_token_class t = true.
Proof.
  revert t r; induction s as [|c s IH]; intros t r H; simpl in H.
  - now injection H as <- <-.
  - destruct (in_token_class c) eqn:E.
    + destruct (take_token s) as [t' r'] eqn:Ets. injection H as <- <-.
      destruct (IH _ _ eq_refl) as [-> Ht']. simpl. now rewrite E, Ht'.
    + now injection H as <- <-.
Qed.

Lemma match_at_occurs (s tok : string) :
  match_at s = Some tok -> occurs_at s 0 tok.
Proof.
  unfold match_at.
  destruct (match_literal_ci channel_field s) as [r1|] eqn:E1; [|discriminate].
  apply match_literal_ci_inv in E1 as [f9 [Hs Hf9]].
  unfold channel_field in Hf9.
  destruct (ci_eq_cons _ _ _ Hf9) as [c0 [f8 [-> [Hc0 Hf8]]]].
  apply canonicalize_dquote in Hc0; subst c0.
  destruct (ci_eq_app_inv _ _ _ Hf8) as [field [fq [-> [Hfield Hfq]]]].
  apply ci_eq_dquote_end in Hfq; subst fq.
  destruct (skip_spaces_inv r1) as [ws1 [Hr1 Hws1]].
  destruct (skip_spaces r1) as [|c2 r2]; [discriminate|].
  destruct (Ascii.eqb (canonicalize c2) colon) eqn:E2; [|discriminate].
  apply Ascii.eqb_eq, canonicalize_colon in E2; subst c2.
  destruct (skip_spaces_inv r2) as [ws2 [Hr2 Hws2]].
  destruct (skip_spaces r2) as [|c3 r3]; [discriminate|].
  destruct (Ascii.eqb (canonicalize c3) dquote) eqn:E3; [|discriminate].
  apply Ascii.eqb_eq, canonicalize_dquote in E3; subst c3.
  destruct (take_token r3) as [t r4] eqn:E4.
  apply take_token_inv in E4 as [Hr3 Ht].
  destruct t as [|t0 tr]; [discriminate|].
  destruct r4 as [|c4 rest]; [discriminate|].
  destruct (Ascii.eqb (canonicalize c4) dquote) eqn:E5; [|discriminate].
  apply Ascii.eqb_eq, canonicalize_dquote in E5; subst c4.
  intro H; injection H as <-.
  exists EmptyString, field, ws1, ws2, rest.
  repeat split; auto; [| discriminate].
  subst s r1 r2 r3. simpl. now rewrite string_app_assoc.
Qed.

Lemma occurs_match_at (s tok : string) :
  occurs_at s 0 tok -> match_at s = Some tok.
Proof.
  intros (pre & field & ws1 & ws2 & rest & -> & Hpre & Hfield & Hws1 & Hws2 & Hne & Htok).
  destruct pre; [|discriminate]. simpl.
  unfold match_at, channel_field. rewrite match_literal_ci_cons, Ascii.eqb_refl.
  rewrite (match_literal_ci_app _ _ _ _ Hfield). simpl.
  rewrite (skip_spaces_app _ _ Hws1). simpl.
  rewrite (skip_spaces_app _ _ Hws2). simpl.
  rewrite (take_token_app tok rest dquote Htok eq_refl).
  destruct tok; [congruence | reflexivity].
Qed.

Lemma occurs_at_nil (i : nat) (tok : string) : ~ occurs_at EmptyString i tok.
Proof.
  intros (pre & field & ws1 & ws2 & rest & H & _).
  destruct pre; discriminate.
Qed.

Lemma occurs_at_cons (c : ascii) (r : string) (i : nat) (tok : string) :
  occurs_at (String c r) (S i) tok <-> occurs_at r i tok.
Proof.
  split.
  - intros (pre & field & ws1 & ws2 & rest & H & Hpre & Hrest).
    destruct pre as [|c' pre]; [discriminate|].
    injection H as -> Hr. injection Hpre as Hpre.
    exists pre, field, ws1, ws2, rest; auto.
  - intros (pre & field & ws1 & ws2 & rest & H & Hpre & Hrest).
    exists (String c pre), field, ws1, ws2, rest.
    split; [simpl; now rewrite H|]. split; [simpl; now rewrite Hpre | auto].
Qed.

Lemma regex_exec_some (s tok : string) :
  regex_exec s = Some tok <-> first_occurrence s tok.
Proof.
  revert tok; induction s as [|c r IH]; intro tok.
  - split; [discriminate|]. intros (i & Hocc & _). now apply occurs_at_nil in Hocc.
  - simpl. destruct (match_at (String c r)) as [t0|] eqn:E.
    + apply match_at_occurs in E. split.
      * intros [= <-]. exists 0; split; [exact E | intros j t Hj; lia].
      * intros (i & Hocc & Hmin). destruct i as [|i].
        -- apply occurs_match_at in Hocc. apply match_at_occurs in Hocc.
           apply occurs_match_at in E. apply occurs_match_at in Hocc.
           congruence.
        -- exfalso. apply (Hmin 0 t0); [lia | exact E].
    + rewrite IH. split.
      * intros (i & Hocc & Hmin). exists (S i). split; [now apply occurs_at_cons|].
        intros [|j] t Hj Hj'.
        -- apply occurs_match_at in Hj'. congruence.
        -- apply occurs_at_cons in Hj'. apply (Hmin j t); [lia | exact Hj'].
      * intros ([|i] & Hocc & Hmin).
        -- apply occurs_match_at in Hocc. congruence.
        -- exists i. split; [now apply occurs_at_cons in Hocc|].
           intros j t Hj Hj'. apply (Hmin (S j) t); [lia | now apply occurs_at_cons].
Qed.

Lemma regex_exec_none (s : string) :
  regex_exec s = None <-> forall i tok, ~ occurs_at s i tok.
Proof.
  induction s as [|c r IH].
  - split; [intros _ i tok; apply occurs_at_nil | reflexivity].
  - simpl. destruct (match_at (String c r)) as [t0|] eqn:E.
    + split; [discriminate|]. intro H. exfalso.
      apply (H 0 t0). now apply match_at_occurs.
    + rewrite IH. split.
      * intros H [|i] tok Hocc.
        -- apply occurs_match_at in Hocc. congruence.
        -- apply occurs_at_cons in Hocc. exact (H i tok Hocc).
      * intros H i tok Hocc. apply (H (S i) tok). now apply occurs_at_cons.
Qed.

Lemma extract_nonempty (s tok : string) :
  extractChannelId s = Some tok -> tok <> EmptyString.
Proof.
  unfold extractChannelId. rewrite regex_exec_some.
  intros (i & (pre & field & ws1 & ws2 & rest & _ & _ & _ & _ & _ & Hne & _) & _).
  exact Hne.
Qed.

(** ** Lemmas on the router *)

Lemma onToolResults_none (results : list ToolResult) (w : World) :
  store w = None ->
  onToolResults results w = (output_text "Error: Could not restore state", after_restore w).
Proof.
  intro H. unfold onToolResults, bind, restore, ret, after_restore.
  rewrite H. reflexivity.
Qed.

Lemma onToolResults_some (results : list ToolResult) (w : World) (st : State) :
  store w = Some st ->
  onToolResults results w =
  (if stage st =? "checking_channel" then on_checking_channel st results
   else if stage st =? "running_triage" then on_running_triage results
   else ret (output_text "Unexpected state")) (after_restore w).
Proof.
  intro H. unfold onToolResults, bind, restore, after_restore.
  rewrite H. reflexivity.
Qed.

Lemma on_running_triage_output (results : list ToolResult) (w : World) :
  exists o, on_running_triage results w = (AROutput o, w).
Proof.
  unfold on_running_triage, ret.
  destruct (find_result _ results) as [r|]; [|eexists; reflexivity].
  destruct (worker_text_of r) as [[|c t]|]; eexists; reflexivity.
Qed.

Lemma on_checking_channel_cases (st : State) (results : list ToolResult) (w : World) :
  (exists o, on_checking_channel st results w = (AROutput o, w))
  \/ (exists r, find_result "slack_get_conversation_info" results = Some r
       /\ channel_name_of r = Some TARGET_CHANNEL
       /\ on_checking_channel st results w
          = (ARCallTools [worker_call (originalInput st)],
             {| store := Some (triage_state st);
                ops := ops w ++ [OpSave (triage_state st)] |})).
Proof.
  unfold on_checking_channel, bind, save, ret.
  destruct (find_result _ results) as [r|] eqn:Ef; [|left; eexists; reflexivity].
  destruct (channel_name_of r) as [[|c nm]|] eqn:En; try (left; eexists; reflexivity).
  destruct (String c nm =? TARGET_CHANNEL) eqn:Et; simpl negb;
    [|left; eexists; reflexivity].
  apply String.eqb_eq in Et. right. exists r. rewrite Et in *.
  split; [auto | split; [auto | reflexivity]].
Qed.

Lemma start_cases (input : Input) (w : World) :
  (extractChannelId (in_text input) = None
   /\ start input w
      = (output_text "Could not extract channel ID from webhook payload. Skipping.", w))
  \/ (exists id, extractChannelId (in_text input) = Some id
       /\ start input w
          = (ARCallTools [slack_call id],
             {| store := Some (checking_state_of input id);
                ops := ops w ++ [OpSave (checking_state_of input id)] |})).
Proof.
  unfold start, bind, save, ret.
  destruct (extractChannelId (in_text input)) as [id|] eqn:E; [|left; auto].
  right. exists id. split; [reflexivity|].
  destruct id as [|c id]; [exfalso; exact (extract_nonempty _ _ E eq_refl)|].
  reflexivity.
Qed.

Lemma onToolResults_cases (results : list ToolResult) (w : World) :
  (exists o, onToolResults results w = (AROutput o, after_restore w))
  \/ (exists st r, store w = Some st
       /\ stage st = "checking_channel"
       /\ find_result "slack_get_conversation_info" results = Some r
       /\ channel_name_of r = Some TARGET_CHANNEL
       /\ onToolResults results w
          = (ARCallTools [worker_call (originalInput st)],
             {| store := Some (triage_state st);
                ops := ops w ++ [OpRestore; OpSave (triage_state st)] |})).
Proof.
  destruct (store w) as [st|] eqn:Hs.
  - rewrite (onToolResults_some _ _ _ Hs).
    destruct (stage st =? "checking_channel") eqn:E1.
    + destruct (on_checking_channel_cases st results (after_restore w))
        as [[o Ho] | (r & Hf & Hn & Ho)]; rewrite Ho; [left; eauto|].
      right. exists st, r. apply String.eqb_eq in E1.
      split; [reflexivity|]. split; [exact E1|]. split; [exact Hf|].
      split; [exact Hn|]. unfold after_restore. simpl.
      now rewrite <- app_assoc.
    + left. destruct (stage st =? "running_triage").
      * destruct (on_running_triage_output results (after_restore w)) as [o Ho].
        rewrite Ho. eauto.
      * eexists; reflexivity.
  - left. rewrite (onToolResults_none _ _ Hs). eexists; reflexivity.
Qed.

Lemma find_filter {A} (p : A -> bool) (l : list A) :
  find p (filter p l) = find p l.
Proof.
  induction l as [|x l IH]; simpl; [reflexivity|].
  destruct (p x) eqn:E; simpl; [now rewrite E | exact IH].
Qed.

Lemma reachable_store_ok (w : World) :
  reachable w -> store_ok w.
Proof.
  induction 1 as [l | w input _ IH | w results _ IH]; unfold store_ok in *; simpl.
  - exact I.
  - destruct (start_cases input w) as [[_ ->] | (id & _ & ->)]; simpl;
      [exact IH | reflexivity].
  - destruct (onToolResults_cases results w)
      as [[o ->] | (st & r & _ & _ & _ & _ & ->)]; simpl; [exact IH | reflexivity].
Qed.

Lemma stateSchema_ok_stage (st : State) :
  stateSchema_ok st = true ->
  stage st = "checking_channel" \/ stage st = "running_triage".
Proof.
  unfold stateSchema_ok. intro H. apply orb_prop in H as [H|H];
    apply String.eqb_eq in H; auto.
Qed.

(** ** Claims *)

(** C1: in stage [checking_channel], when the Slack channel-info result
    carries a channel name other than ["its-broken"], the step ends with the
    skip message naming both channels, saves nothing and issues no call. *)
Theorem skip_when_not_target (w : World) (st : State) (results : list ToolResult)
  (r : ToolResult) (nm : string) :
  store w = Some st ->
  stage st = "checking_channel" ->
  find_result "slack_get_conversation_info" results = Some r ->
  channel_name_of r = Some nm ->
  nm <> EmptyString ->
  nm <> TARGET_CHANNEL ->
  onToolResults results w
  = (output_text ("Skipped: Message was in #" ++ nm ++ ", not #" ++ TARGET_CHANNEL),
     after_restore w).
Proof.
  intros Hs Hst Hf Hn Hne Hneq.
  rewrite (onToolResults_some _ _ _ Hs), Hst. simpl.
  unfold on_checking_channel. rewrite Hf, Hn.
  destruct nm as [|c nm]; [contradiction|].
  apply String.eqb_neq in Hneq. rewrite Hneq. reflexivity.
Qed.

(** C2: in stage [checking_channel], when the channel name is
    ["its-broken"], the step issues exactly one call, to
    [its_broken_triage_worker], with the restored [originalInput]; after a
    [start], that is the text [start] received. *)
Theorem delegates_original_input :
  (forall (w : World) (st : State) (results : list ToolResult) (r : ToolResult),
     store w = Some st ->
     stage st = "checking_channel" ->
     find_result "slack_get_conversation_info" results = Some r ->
     channel_name_of r = Some TARGET_CHANNEL ->
     fst (onToolResults results w)
     = ARCallTools [ {| call_type := "tool-call";
                        call_toolCallId := "run-triage";
                        call_toolName := "its_broken_triage_worker";
                        call_input := TriageWorkerInput "text" (originalInput st) |} ])
  /\
  (forall (input : Input) (w0 : World) (id : string) (results : list ToolResult)
          (r : ToolResult),
     extractChannelId (in_text input) = Some id ->
     find_result "slack_get_conversation_info" results = Some r ->
     channel_name_of r = Some TARGET_CHANNEL ->
     fst (onToolResults results (snd (start input w0)))
     = ARCallTools [ {| call_type := "tool-call";
                        call_toolCallId := "run-triage";
                        call_toolName := "its_broken_triage_worker";
                        call_input := TriageWorkerInput "text" (in_text input) |} ]).
Proof.
  assert (Step : forall (w : World) (st : State) (results : list ToolResult) (r : ToolResult),
     store w = Some st ->
     stage st = "checking_channel" ->
     find_result "slack_get_conversation_info" results = Some r ->
     channel_name_of r = Some TARGET_CHANNEL ->
     fst (onToolResults results w) = ARCallTools [worker_call (originalInput st)]).
  { intros w st results r Hs Hst Hf Hn.
    rewrite (onToolResults_some _ _ _ Hs), Hst. simpl.
    unfold on_checking_channel. rewrite Hf, Hn. reflexivity. }
  split; [exact Step|].
  intros input w0 id results r He Hf Hn.
  pose proof (extract_nonempty _ _ He) as Hne.
  unfold start. rewrite He.
  destruct id as [|c id]; [contradiction|].
  unfold bind, save, ret. cbn beta iota. cbn [snd].
  refine (Step _ {| originalInput := in_text input; channelId := String c id;
                   channelName := EmptyString; stage := "checking_channel" |}
               _ r _ eq_refl Hf Hn).
  reflexivity.
Qed.

(** C3: when the text holds no occurrence of the channel pattern, [start]
    returns the extraction-failure message and leaves the task untouched:
    no save, no restore, no outbound call. *)
Theorem start_without_channel (input : Input) (w : World) :
  (forall i tok, ~ occurs_at (in_text input) i tok) ->
  start input w
  = (output_text "Could not extract channel ID from webhook payload. Skipping.", w).
Proof.
  intro H. apply regex_exec_none in H.
  unfold start, extractChannelId. rewrite H. reflexivity.
Qed.

(** C4: a resumption with nothing to restore returns
    ["Error: Could not restore state"], whatever the results and the stage
    would have been. *)
Theorem resume_without_state (results : list ToolResult) (w : World) :
  store w = None ->
  onToolResults results w
  = (output_text "Error: Could not restore state",
     {| store := None; ops := ops w ++ [OpRestore] |}).
Proof.
  intro H. rewrite (onToolResults_none _ _ H). unfold after_restore. now rewrite H.
Qed.

(** C5: in stage [running_triage] the worker's text is the final output,
    and an empty text falls back to ["Triage completed"]. *)
Theorem worker_text_relayed (w : World) (st : State) (results : list ToolResult)
  (id : string) (o : WorkerOutput) :
  store w = Some st ->
  stage st = "running_triage" ->
  find_result "its_broken_triage_worker" results = Some (TriageWorkerResult id o) ->
  (text o = EmptyString -> fst (onToolResults results w) = output_text "Triage completed")
  /\ (text o <> EmptyString -> fst (onToolResults results w) = output_text (text o)).
Proof.
  intros Hs Hst Hf.
  rewrite (onToolResults_some _ _ _ Hs), Hst. simpl.
  unfold on_running_triage. rewrite Hf. simpl.
  destruct (text o) as [|c t]; split; intro H; try reflexivity; congruence.
Qed.

(** C6: [start] never reads the state and, before suspending on the Slack
    lookup, saves [{ stage: checking_channel, originalInput, channelId }];
    every resumption reads the state exactly once, first, and before
    suspending on the worker saves the restored state with
    [stage: running_triage] and the channel name. *)
Theorem state_read_once_saved_before_suspend :
  (forall (input : Input) (w : World),
     exists tail,
       ops (snd (start input w)) = (ops w ++ tail)%list
       /\ ~ In OpRestore tail
       /\ forall calls, fst (start input w) = ARCallTools calls ->
            exists id,
              tail = [OpSave {| originalInput := in_text input; channelId := id;
                                channelName := EmptyString;
                                stage := "checking_channel" |}]
              /\ calls = [ {| call_type := "tool-call";
                              call_toolCallId := "check-channel";
                              call_toolName := "slack_get_conversation_info";
                              call_input := SlackConversationInfoInput id |} ])
  /\
  (forall (results : list ToolResult) (w : World),
     exists tail,
       ops (snd (onToolResults results w)) = (ops w ++ OpRestore :: tail)%list
       /\ ~ In OpRestore tail
       /\ forall calls, fst (onToolResults results w) = ARCallTools calls ->
            exists st,
              store w = Some st
              /\ stage st = "checking_channel"
              /\ tail = [OpSave {| originalInput := originalInput st;
                                   channelId := channelId st;
                                   channelName := TARGET_CHANNEL;
                                   stage := "running_triage" |}]
              /\ calls = [worker_call (originalInput st)]).
Proof.
  split.
  - intros input w. unfold start, bind, save, ret.
    destruct (extractChannelId (in_text input)) as [[|c id]|]; simpl.
    + exists []. rewrite app_nil_r. split; [reflexivity|].
      split; [intros []|]. discriminate.
    + eexists. split; [reflexivity|]. split; [simpl; intros [H|[]]; discriminate|].
      intros calls [= <-]. exists (String c id). split; reflexivity.
    + exists []. rewrite app_nil_r. split; [reflexivity|].
      split; [intros []|]. discriminate.
  - intros results w.
    destruct (store w) as [st|] eqn:Hs.
    + rewrite (onToolResults_some _ _ _ Hs).
      destruct (stage st =? "checking_channel") eqn:E1.
      * destruct (on_checking_channel_cases st results (after_restore w))
          as [[o Ho] | (r & Hf & Hn & Ho)]; rewrite Ho; simpl.
        -- exists []. split; [reflexivity|].
           split; [intros []|]. discriminate.
        -- exists [OpSave (triage_state st)]. rewrite <- app_assoc.
           split; [reflexivity|]. split; [simpl; intros [H|[]]; discriminate|].
           intros calls [= <-]. exists st. apply String.eqb_eq in E1.
           repeat split; auto.
      * destruct (stage st =? "running_triage").
        -- destruct (on_running_triage_output results (after_restore w)) as [o Ho].
           rewrite Ho; simpl. exists []. split; [reflexivity|].
           split; [intros []|]. discriminate.
        -- simpl. exists []. split; [reflexivity|]. split; [intros []|]. discriminate.
    + rewrite (onToolResults_none _ _ Hs). simpl. exists [].
      split; [reflexivity|]. split; [intros []|]. discriminate.
Qed.

(** C7 (as the code does it): no step of the router deletes the persisted
    state.  A step that ends in a terminal output leaves the persisted state
    as it was before the step; a step that suspends leaves in the store the
    state it has just saved, its last task operation being that save. *)
Theorem router_never_deletes_state :
  (forall (input : Input) (w : World),
     (is_terminal (fst (start input w)) = true -> store (snd (start input w)) = store w)
     /\ (is_terminal (fst (start input w)) = false ->
         exists st pre, store (snd (start input w)) = Some st
           /\ ops (snd (start input w)) = (ops w ++ pre ++ [OpSave st])%list))
  /\
  (forall (results : list ToolResult) (w : World),
     (is_terminal (fst (onToolResults results w)) = true ->
      store (snd (onToolResults results w)) = store w)
     /\ (is_terminal (fst (onToolResults results w)) = false ->
         exists st pre, store (snd (onToolResults results w)) = Some st
           /\ ops (snd (onToolResults results w)) = (ops w ++ pre ++ [OpSave st])%list)).
Proof.
  split.
  - intros input w.
    destruct (start_cases input w) as [[_ ->] | (id & _ & ->)]; simpl;
      split; intro H; try discriminate; [reflexivity|].
    exists (checking_state_of input id), []. split; reflexivity.
  - intros results w.
    destruct (onToolResults_cases results w)
      as [[o ->] | (st & r & _ & _ & _ & _ & ->)]; simpl;
      split; intro H; try discriminate; [reflexivity|].
    exists (triage_state st), [OpRestore]. split; reflexivity.
Qed.

(** C8: in stage [checking_channel], the step returns
    ["Error: Could not get channel info from Slack"] exactly when no result
    comes from [slack_get_conversation_info], and
    ["Error: Could not determine channel name"] exactly when the (first)
    such result carries no channel name or an empty one. *)
Theorem channel_info_errors (w : World) (st : State) (results : list ToolResult) :
  store w = Some st ->
  stage st = "checking_channel" ->
  (fst (onToolResults results w) = output_text "Error: Could not get channel info from Slack"
   <-> find_result "slack_get_conversation_info" results = None)
  /\
  (fst (onToolResults results w) = output_text "Error: Could not determine channel name"
   <-> exists r, find_result "slack_get_conversation_info" results = Some r
                 /\ (channel_name_of r = None \/ channel_name_of r = Some EmptyString)).
Proof.
  intros Hs Hst.
  rewrite (onToolResults_some _ _ _ Hs), Hst. simpl.
  unfold on_checking_channel, bind, save, ret.
  destruct (find_result "slack_get_conversation_info" results) as [r|] eqn:Ef.
  - destruct (channel_name_of r) as [[|c nm]|] eqn:En.
    + simpl. split; split; intro H; try discriminate; eauto.
    + destruct (negb (String c nm =? TARGET_CHANNEL)); simpl;
        split; split; intro H; try discriminate;
        destruct H as (r' & Hr' & [Hn | Hn]); congruence.
    + simpl. split; split; intro H; try discriminate; eauto.
  - simpl. split; split; intro H; try reflexivity; try discriminate.
    destruct H as (r' & Hr' & _); discriminate.
Qed.

(** C9: for a restored state whose stage is [checking_channel] or
    [running_triage], the step runs that stage's branch, not the fallback;
    the fallback, returning ["Unexpected state"], runs exactly when the
    stage is another value, which no state accepted by [stateSchema] has;
    and in every world the host reaches from an empty store by [start] and
    [onToolResults] steps the restored stage is one of the two, so the
    fallback is never taken under correct operation. *)
Theorem fallback_only_for_unknown_stage (w : World) (st : State)
  (results : list ToolResult) :
  store w = Some st ->
  (stage st = "checking_channel" ->
     onToolResults results w = on_checking_channel st results (after_restore w))
  /\ (stage st = "running_triage" ->
     onToolResults results w = on_running_triage results (after_restore w))
  /\ (stage st <> "checking_channel" -> stage st <> "running_triage" ->
     onToolResults results w = (output_text "Unexpected state", after_restore w))
  /\ (stateSchema_ok st = true ->
     stage st = "checking_channel" \/ stage st = "running_triage")
  /\ (reachable w ->
     (stage st = "checking_channel" \/ stage st = "running_triage")
     /\ (onToolResults results w = on_checking_channel st results (after_restore w)
         \/ onToolResults results w = on_running_triage results (after_restore w))).
Proof.
  intro Hs. rewrite (onToolResults_some _ _ _ Hs).
  split; [intros -> ; reflexivity|].
  split; [intros -> ; reflexivity|].
  split.
  - intros H1 H2. apply String.eqb_neq in H1, H2. rewrite H1, H2. reflexivity.
  - split; [apply stateSchema_ok_stage|].
    intro Hr. apply reachable_store_ok in Hr. unfold store_ok in Hr.
    rewrite Hs in Hr. apply stateSchema_ok_stage in Hr.
    split; [exact Hr|].
    destruct Hr as [-> | ->]; [left | right]; reflexivity.
Qed.

(** C10: [extractChannelId] returns the token of the leftmost occurrence of
    [/"channel"\s*:\s*"([A-Z0-9]+)"/i] anywhere in the text, and [null]
    exactly when the text holds no occurrence. *)
Theorem extractChannelId_first_occurrence (s : string) :
  (forall tok, extractChannelId s = Some tok <-> first_occurrence s tok)
  /\ (extractChannelId s = None <-> forall i tok, ~ occurs_at s i tok).
Proof.
  split; [intro tok; apply regex_exec_some | apply regex_exec_none].
Qed.

(** ** Counterexamples to claims as first stated *)

(** C7 as stated fails: after the channel-mismatch skip the state saved by
    [start] is still in the store. *)
Lemma skip_leaves_state_stored :
  ~ (forall (results : list ToolResult) (w : World),
       is_terminal (fst (onToolResults results w)) = true ->
       store (snd (onToolResults results w)) = None).
Proof.
  intro H.
  specialize (H [slack_result "random-chan"] checking_world eq_refl).
  vm_compute in H. discriminate H.
Qed.

(** ** Witnesses: the claims' theorems applied to concrete inputs *)

Ltac concrete_hyp := split; [first [reflexivity | discriminate] |].

Lemma skip_when_not_target_witness :
  store checking_world = Some checking_state
  /\ stage checking_state = "checking_channel"
  /\ find_result "slack_get_conversation_info" [slack_result "random-chan"]
     = Some (slack_result "random-chan")
  /\ channel_name_of (slack_result "random-chan") = Some "random-chan"
  /\ "random-chan" <> EmptyString
  /\ "random-chan" <> TARGET_CHANNEL
  /\ onToolResults [slack_result "random-chan"] checking_world
     = (output_text ("Skipped: Message was in #" ++ "random-chan" ++ ", not #"
                     ++ TARGET_CHANNEL),
        after_restore checking_world).
Proof.
  do 6 concrete_hyp.
  apply (skip_when_not_target checking_world checking_state _
           (slack_result "random-chan") "random-chan");
    first [reflexivity | discriminate].
Defined.

Lemma delegates_original_input_witness :
  extractChannelId (payload "C222") = Some "C222"
  /\ find_result "slack_get_conversation_info" [slack_result "its-broken"]
     = Some (slack_result "its-broken")
  /\ channel_name_of (slack_result "its-broken") = Some TARGET_CHANNEL
  /\ fst (onToolResults [slack_result "its-broken"]
            (snd (start {| in_type := "text"; in_text := payload "C222" |} world0)))
     = ARCallTools [ {| call_type := "tool-call";
                        call_toolCallId := "run-triage";
                        call_toolName := "its_broken_triage_worker";
                        call_input := TriageWorkerInput "text" (payload "C222") |} ].
Proof.
  do 3 concrete_hyp.
  apply (proj2 delegates_original_input
           {| in_type := "text"; in_text := payload "C222" |} world0 "C222"
           _ (slack_result "its-broken")); reflexivity.
Defined.

Lemma start_without_channel_witness :
  (forall i tok, ~ occurs_at (payload "C-1") i tok)
  /\ start {| in_type := "text"; in_text := payload "C-1" |} world0
     = (output_text "Could not extract channel ID from webhook payload. Skipping.",
        world0).
Proof.
  split; [apply regex_exec_none; reflexivity|].
  apply start_without_channel. apply regex_exec_none. reflexivity.
Defined.

Lemma resume_without_state_witness :
  store world0 = None
  /\ onToolResults [slack_result "its-broken"] world0
     = (output_text "Error: Could not restore state",
        {| store := None; ops := ops world0 ++ [OpRestore] |}).
Proof.
  concrete_hyp. apply resume_without_state. reflexivity.
Defined.

Lemma worker_text_relayed_witness :
  store triage_world = Some (triage_state checking_state)
  /\ stage (triage_state checking_state) = "running_triage"
  /\ find_result "its_broken_triage_worker" [worker_result "Issue #42 created"]
     = Some (TriageWorkerResult "run-triage"
               {| w_type := "text"; text := "Issue #42 created" |})
  /\ fst (onToolResults [worker_result "Issue #42 created"] triage_world)
     = output_text "Issue #42 created".
Proof.
  do 3 concrete_hyp.
  apply (proj2 (worker_text_relayed triage_world (triage_state checking_state)
                  [worker_result "Issue #42 created"] "run-triage"
                  {| w_type := "text"; text := "Issue #42 created" |}
                  eq_refl eq_refl eq_refl)).
  discriminate.
Defined.

Lemma state_read_once_saved_before_suspend_witness :
  fst (onToolResults [slack_result "its-broken"] checking_world)
  = ARCallTools [worker_call (payload "C111")]
  /\ ops (snd (onToolResults [slack_result "its-broken"] checking_world))
     = [OpRestore; OpSave (triage_state checking_state)].
Proof.
  destruct (proj2 state_read_once_saved_before_suspend
              [slack_result "its-broken"] checking_world)
    as (tail & Hops & _ & Hcalls).
  assert (Hc : fst (onToolResults [slack_result "its-broken"] checking_world)
               = ARCallTools [worker_call (payload "C111")]) by reflexivity.
  destruct (Hcalls _ Hc) as (st & Hs & _ & Ht & _).
  split; [exact Hc|]. rewrite Hops, Ht.
  injection Hs as <-. reflexivity.
Defined.

Lemma router_never_deletes_state_witness :
  is_terminal (fst (onToolResults [slack_result "random-chan"] checking_world)) = true
  /\ store (snd (onToolResults [slack_result "random-chan"] checking_world))
     = Some checking_state.
Proof.
  concrete_hyp.
  apply (proj1 (proj2 router_never_deletes_state
                  [slack_result "random-chan"] checking_world)).
  reflexivity.
Defined.

Lemma channel_info_errors_witness :
  store checking_world = Some checking_state
  /\ stage checking_state = "checking_channel"
  /\ (fst (onToolResults [] checking_world)
        = output_text "Error: Could not get channel info from Slack"
      <-> find_result "slack_get_conversation_info" [] = None).
Proof.
  do 2 concrete_hyp.
  apply (proj1 (channel_info_errors checking_world checking_state [] eq_refl eq_refl)).
Defined.

Lemma fallback_only_for_unknown_stage_witness :
  store (snd (start {| in_type := "text"; in_text := payload "C111" |} world0))
  = Some (checking_state_of {| in_type := "text"; in_text := payload "C111" |} "C111")
  /\ reachable (snd (start {| in_type := "text"; in_text := payload "C111" |} world0))
  /\ (onToolResults [slack_result "random-chan"]
        (snd (start {| in_type := "text"; in_text := payload "C111" |} world0))
      = on_checking_channel
          (checking_state_of {| in_type := "text"; in_text := payload "C111" |} "C111")
          [slack_result "random-chan"]
          (after_restore (snd (start {| in_type := "text"; in_text := payload "C111" |}
                                     world0)))
      \/ onToolResults [slack_result "random-chan"]
            (snd (start {| in_type := "text"; in_text := payload "C111" |} world0))
          = on_running_triage [slack_result "random-chan"]
              (after_restore (snd (start {| in_type := "text";
                                            in_text := payload "C111" |} world0)))).
Proof.
  concrete_hyp.
  assert (Hr : reachable (snd (start {| in_type := "text"; in_text := payload "C111" |}
                                     world0)))
    by (apply reach_start; exact (reach_init [])).
  split; [exact Hr|].
  apply (proj2 (proj2 (proj2 (proj2 (fallback_only_for_unknown_stage
           (snd (start {| in_type := "text"; in_text := payload "C111" |} world0))
           (checking_state_of {| in_type := "text"; in_text := payload "C111" |} "C111")
           [slack_result "random-chan"] eq_refl)))) Hr).
Defined.

Lemma extractChannelId_first_occurrence_witness :
  let s := "note " ++ String dquote "CHANNEL" ++ String dquote " : " ++
           String dquote "c1x" ++ String dquote " more" in
  extractChannelId s = Some "c1x" /\ first_occurrence s "c1x".
Proof.
  intro s. concrete_hyp.
  apply (proj1 (extractChannelId_first_occurrence s) "c1x"). reflexivity.
Defined.

(** ** Further properties of the router *)

(** A whole invocation on the delegation path: [start] looks the channel
    up, the first resumption hands the original text to the worker, and the
    second returns the worker's non-empty text; the task operations are
    save, restore, save, restore, and the last saved state is the
    [running_triage] one. *)
Theorem full_invocation_delegates_and_relays (input : Input) (w0 : World)
  (id : string) (res1 res2 : list ToolResult) (r : ToolResult) (cid : string)
  (o : WorkerOutput) :
  extractChannelId (in_text input) = Some id ->
  find_result "slack_get_conversation_info" res1 = Some r ->
  channel_name_of r = Some TARGET_CHANNEL ->
  find_result "its_broken_triage_worker" res2 = Some (TriageWorkerResult cid o) ->
  text o <> EmptyString ->
  let w1 := snd (start input w0) in
  let w2 := snd (onToolResults res1 w1) in
  let w3 := snd (onToolResults res2 w2) in
  fst (start input w0) = ARCallTools [slack_call id]
  /\ fst (onToolResults res1 w1) = ARCallTools [worker_call (in_text input)]
  /\ fst (onToolResults res2 w2) = output_text (text o)
  /\ ops w3 = (ops w0 ++ [OpSave (checking_state_of input id); OpRestore;
                          OpSave (triage_state (checking_state_of input id));
                          OpRestore])%list
  /\ store w3 = Some (triage_state (checking_state_of input id)).
Proof.
  intros He Hf1 Hn1 Hf2 Hne.
  destruct (start_cases input w0) as [[He' _] | (id' & He' & Hst)]; [congruence|].
  rewrite He in He'. injection He' as <-.
  set (s1 := checking_state_of input id).
  set (w1 := {| store := Some s1; ops := ops w0 ++ [OpSave s1] |}).
  assert (E2 : onToolResults res1 w1
               = (ARCallTools [worker_call (in_text input)],
                  {| store := Some (triage_state s1);
                     ops := ops w1 ++ [OpRestore; OpSave (triage_state s1)] |})).
  { rewrite (onToolResults_some res1 w1 s1 eq_refl). simpl.
    unfold on_checking_channel, bind, save, ret. rewrite Hf1, Hn1. simpl.
    unfold after_restore. simpl. now rewrite <- app_assoc. }
  set (w2 := {| store := Some (triage_state s1);
                ops := ops w1 ++ [OpRestore; OpSave (triage_state s1)] |}).
  assert (E3 : onToolResults res2 w2 = (output_text (text o), after_restore w2)).
  { rewrite (onToolResults_some res2 w2 (triage_state s1) eq_refl). simpl.
    unfold on_running_triage, ret. rewrite Hf2. simpl.
    destruct (text o) as [|c t]; [contradiction | reflexivity]. }
  unfold w2, w1, s1 in *. clear w2 w1 s1. cbn [ops store] in E2, E3.
  cbv zeta. rewrite Hst. simpl snd. rewrite E2. simpl snd.
  rewrite E3. simpl. repeat split.
  now rewrite <- !app_assoc.
Qed.

(** Every state record the router writes, in [start] or in a resumption,
    conforms to [stateSchema]: its stage is one of the two enum values. *)
Theorem saved_states_conform :
  (forall (input : Input) (w : World),
     exists tail, ops (snd (start input w)) = (ops w ++ tail)%list
       /\ forall st, In (OpSave st) tail -> stateSchema_ok st = true)
  /\ (forall (results : list ToolResult) (w : World),
     exists tail, ops (snd (onToolResults results w)) = (ops w ++ tail)%list
       /\ forall st, In (OpSave st) tail -> stateSchema_ok st = true).
Proof.
  split.
  - intros input w.
    destruct (start_cases input w) as [[_ ->] | (id & _ & ->)]; simpl.
    + exists []. rewrite app_nil_r. split; [reflexivity | intros st []].
    + eexists. split; [reflexivity|].
      intros st [H|[]]. injection H as <-. reflexivity.
  - intros results w.
    destruct (onToolResults_cases results w)
      as [[o ->] | (st & r & _ & _ & _ & _ & ->)]; simpl.
    + eexists. split; [reflexivity|]. intros st [H|[]]; discriminate.
    + eexists. split; [reflexivity|].
      intros st' [H|[H|[]]]; [discriminate|]. injection H as <-. reflexivity.
Qed.

(** In every world the host can reach from an empty store by any sequence
    of [start] and [onToolResults] steps, the persisted state, if any, has
    stage [checking_channel] or [running_triage]; so a resumption from such
    a world runs one of the two stage branches, never the
    ["Unexpected state"] fallback. *)
Theorem reachable_store_conforms (w : World) :
  reachable w ->
  store_ok w
  /\ forall (st : State) (results : list ToolResult),
       store w = Some st ->
       onToolResults results w = on_checking_channel st results (after_restore w)
       \/ onToolResults results w = on_running_triage results (after_restore w).
Proof.
  intro Hr. apply reachable_store_ok in Hr.
  split; [exact Hr|]. intros st results Hs.
  rewrite (onToolResults_some _ _ _ Hs).
  unfold store_ok in Hr. rewrite Hs in Hr.
  destruct (stateSchema_ok_stage _ Hr) as [-> | ->]; [left | right]; reflexivity.
Qed.

(** A resumption never changes the original text or the channel id of the
    persisted state, never creates a state where none was restored, and
    changes the state only by moving it from [checking_channel] to
    [running_triage] with the target channel name. *)
Theorem resume_keeps_input_and_channel_id (results : list ToolResult) (w : World) :
  (store w = None -> store (snd (onToolResults results w)) = None)
  /\ (forall st st',
        store w = Some st -> store (snd (onToolResults results w)) = Some st' ->
        originalInput st' = originalInput st
        /\ channelId st' = channelId st
        /\ (st' = st
            \/ (stage st = "checking_channel" /\ stage st' = "running_triage"
                /\ channelName st' = TARGET_CHANNEL))).
Proof.
  destruct (onToolResults_cases results w)
    as [[o ->] | (st0 & r & Hs0 & Hst0 & _ & _ & ->)]; unfold after_restore; simpl.
  - split; [auto|]. intros st st' -> [= <-]. auto.
  - split; [congruence|]. intros st st' Hs [= <-].
    rewrite Hs in Hs0. injection Hs0 as <-. simpl.
    split; [reflexivity|]. split; [reflexivity|]. right. auto.
Qed.

(** Once the persisted stage is [running_triage], every resumption ends
    with a terminal output and writes nothing: the triage stage never
    suspends again and never goes back. *)
Theorem running_triage_is_final (results : list ToolResult) (w : World) (st : State) :
  store w = Some st ->
  stage st = "running_triage" ->
  exists o, onToolResults results w = (AROutput o, after_restore w).
Proof.
  intros Hs Hst. rewrite (onToolResults_some _ _ _ Hs), Hst. simpl.
  apply on_running_triage_output.
Qed.

(** The router never has more than one call in flight: [start] issues
    either nothing or the single Slack lookup, and a resumption issues
    either nothing or the single worker call. *)
Theorem one_call_per_suspension :
  (forall (input : Input) (w : World),
     call_names (fst (start input w)) = []
     \/ call_names (fst (start input w)) = ["slack_get_conversation_info"])
  /\ (forall (results : list ToolResult) (w : World),
     call_names (fst (onToolResults results w)) = []
     \/ call_names (fst (onToolResults results w)) = ["its_broken_triage_worker"]).
Proof.
  split.
  - intros input w.
    destruct (start_cases input w) as [[_ ->] | (id & _ & ->)]; simpl; auto.
  - intros results w.
    destruct (onToolResults_cases results w)
      as [[o ->] | (st & r & _ & _ & _ & _ & ->)]; simpl; auto.
Qed.

(** Results of the tool the current stage is not waiting for are ignored:
    in [checking_channel] only the [slack_get_conversation_info] results
    matter, in [running_triage] only the worker's. *)
Theorem other_tool_results_ignored (w : World) (st : State) (results : list ToolResult) :
  store w = Some st ->
  (stage st = "checking_channel" ->
     onToolResults results w
     = onToolResults
         (filter (fun r => toolName r =? "slack_get_conversation_info") results) w)
  /\ (stage st = "running_triage" ->
     onToolResults results w
     = onToolResults
         (filter (fun r => toolName r =? "its_broken_triage_worker") results) w).
Proof.
  intro Hs. rewrite !(onToolResults_some _ _ _ Hs).
  split; intros ->; simpl.
  - unfold on_checking_channel, find_result. now rewrite find_filter.
  - unfold on_running_triage, find_result. now rewrite find_filter.
Qed.

(** The channel id [extractChannelId] returns is a non-empty run of
    letters and digits copied from the input text, and it is exactly the id
    [start] sends in its Slack lookup. *)
Theorem extracted_id_is_alnum_substring (input : Input) (w : World) (id : string) :
  extractChannelId (in_text input) = Some id ->
  id <> EmptyString
  /\ all_chars in_token_class id = true
  /\ (exists p q, in_text input = p ++ (id ++ q))
  /\ fst (start input w) = ARCallTools [slack_call id].
Proof.
  intro He.
  assert (Hst : fst (start input w) = ARCallTools [slack_call id]).
  { destruct (start_cases input w) as [[He' _] | (id' & He' & ->)]; [congruence|].
    rewrite He in He'. now injection He' as <-. }
  revert He. unfold extractChannelId. rewrite regex_exec_some.
  intros (i & (pre & field & ws1 & ws2 & rest & Hs & _ & _ & _ & _ & Hne & Htok) & _).
  split; [exact Hne|]. split; [exact Htok|]. split; [|exact Hst].
  exists (pre ++ String dquote (field ++ String dquote (ws1 ++ String colon
            (ws2 ++ String dquote EmptyString)))), (String dquote rest).
  rewrite Hs. repeat (rewrite string_app_assoc; simpl). reflexivity.
Qed.

(** ** Witnesses for the further properties *)

Lemma full_invocation_delegates_and_relays_witness :
  extractChannelId (payload "C222") = Some "C222"
  /\ find_result "slack_get_conversation_info" [slack_result "its-broken"]
     = Some (slack_result "its-broken")
  /\ channel_name_of (slack_result "its-broken") = Some TARGET_CHANNEL
  /\ find_result "its_broken_triage_worker" [worker_result "Created issue #7"]
     = Some (TriageWorkerResult "run-triage"
               {| w_type := "text"; text := "Created issue #7" |})
  /\ "Created issue #7" <> EmptyString
  /\ fst (onToolResults [worker_result "Created issue #7"]
            (snd (onToolResults [slack_result "its-broken"]
                    (snd (start {| in_type := "text"; in_text := payload "C222" |}
                                world0)))))
     = output_text "Created issue #7".
Proof.
  do 5 concrete_hyp.
  destruct (full_invocation_delegates_and_relays
              {| in_type := "text"; in_text := payload "C222" |} world0 "C222"
              [slack_result "its-broken"] [worker_result "Created issue #7"]
              (slack_result "its-broken") "run-triage"
              {| w_type := "text"; text := "Created issue #7" |}
              eq_refl eq_refl eq_refl eq_refl ltac:(discriminate))
    as (_ & _ & H3 & _).
  exact H3.
Defined.

Lemma saved_states_conform_witness :
  exists tail,
    ops (snd (onToolResults [slack_result "its-broken"] checking_world))
    = (ops checking_world ++ tail)%list
    /\ forall st, In (OpSave st) tail -> stateSchema_ok st = true.
Proof.
  exact (proj2 saved_states_conform [slack_result "its-broken"] checking_world).
Defined.

Lemma reachable_store_conforms_witness :
  reachable (snd (start {| in_type := "text"; in_text := payload "C111" |} world0))
  /\ store_ok (snd (start {| in_type := "text"; in_text := payload "C111" |} world0)).
Proof.
  assert (H : reachable (snd (start {| in_type := "text"; in_text := payload "C111" |}
                                    world0)))
    by (apply reach_start; exact (reach_init [])).
  split; [exact H | exact (proj1 (reachable_store_conforms _ H))].
Defined.

Lemma resume_keeps_input_and_channel_id_witness :
  store checking_world = Some checking_state
  /\ store (snd (onToolResults [slack_result "its-broken"] checking_world))
     = Some (triage_state checking_state)
  /\ originalInput (triage_state checking_state) = originalInput checking_state
  /\ channelId (triage_state checking_state) = channelId checking_state.
Proof.
  do 2 concrete_hyp.
  destruct (proj2 (resume_keeps_input_and_channel_id
                     [slack_result "its-broken"] checking_world)
              checking_state (triage_state checking_state) eq_refl eq_refl)
    as (H1 & H2 & _).
  split; [exact H1 | exact H2].
Defined.

Lemma running_triage_is_final_witness :
  store triage_world = Some (triage_state checking_state)
  /\ stage (triage_state checking_state) = "running_triage"
  /\ exists o, onToolResults [slack_result "its-broken"] triage_world
               = (AROutput o, after_restore triage_world).
Proof.
  do 2 concrete_hyp.
  apply (running_triage_is_final _ _ (triage_state checking_state)); reflexivity.
Defined.

Lemma one_call_per_suspension_witness :
  call_names (fst (onToolResults [slack_result "its-broken"] checking_world)) = []
  \/ call_names (fst (onToolResults [slack_result "its-broken"] checking_world))
     = ["its_broken_triage_worker"].
Proof.
  exact (proj2 one_call_per_suspension [slack_result "its-broken"] checking_world).
Defined.

Lemma other_tool_results_ignored_witness :
  store checking_world = Some checking_state
  /\ stage checking_state = "checking_channel"
  /\ onToolResults [worker_result "x"; slack_result "random-chan"] checking_world
     = onToolResults [slack_result "random-chan"] checking_world.
Proof.
  do 2 concrete_hyp.
  exact (proj1 (other_tool_results_ignored checking_world checking_state
                  [worker_result "x"; slack_result "random-chan"] eq_refl) eq_refl).
Defined.

Lemma extracted_id_is_alnum_substring_witness :
  extractChannelId (payload "C111") = Some "C111"
  /\ "C111" <> EmptyString
  /\ all_chars in_token_class "C111" = true
  /\ (exists p q, payload "C111" = p ++ ("C111" ++ q))
  /\ fst (start {| in_type := "text"; in_text := payload "C111" |} world0)
     = ARCallTools [slack_call "C111"].
Proof.
  concrete_hyp.
  apply (extracted_id_is_alnum_substring
           {| in_type := "text"; in_text := payload "C111" |} world0 "C111").
  reflexivity.
Defined.
